(** * Sentient-X engine: ingestion, capping and result mapping

    A shallow embedding of [src/main.py]: the keyword fallback
    ([extract_keywords]), the per-unit analysis ([perform_analysis]) and the
    three endpoints ([analyze_list], [analyze_file], [scrape_url]).

    Python values are modelled as the program has them:
    - a [str] is a sequence of Unicode code points ([list N]), so that [len],
      slicing, [strip], [split] and [splitlines] count code points, not bytes;
    - [bytes] is a [list byte], decoded by a strict UTF-8 decoder;
    - a [float] is an IEEE-754 value of the Standard Library's [spec_float]
      (negation, absolute value and comparison are exact operations);
    - a [dict] literal is an association list in insertion order;
    - the classifier is an external function; every call made to it is
      recorded in a call log that is threaded through the endpoints. *)

From Stdlib Require Import List Bool Arith NArith ZArith Lia.
From Stdlib Require Import Ascii String Strings.Byte DecimalString.
From Stdlib Require Import Floats.SpecFloat.
Import ListNotations.

Set Implicit Arguments.

(* ================================================================== *)
(** ** Python strings *)

Module PyStr.

(** A Python [str]: a sequence of Unicode code points. *)
Definition str := list N.

(** A literal of the source, whose characters are all ASCII. *)
Definition lit (s : string) : str :=
  List.map N_of_ascii (list_ascii_of_string s).

Definition str_eqb (a b : str) : bool :=
  if list_eq_dec N.eq_dec a b then true else false.

(** [len(s)] *)
Definition len (s : str) : Z := Z.of_nat (List.length s).

(** [str.isspace] on one character: the white-space code points of
    CPython's Unicode database. *)
Definition is_space (c : N) : bool :=
  ((9 <=? c) && (c <=? 13) || (28 <=? c) && (c <=? 32)
   || (c =? 133) || (c =? 160) || (c =? 5760)
   || (8192 <=? c) && (c <=? 8202)
   || (c =? 8232) || (c =? 8233) || (c =? 8239) || (c =? 8287)
   || (c =? 12288))%N.

(** The line boundaries of [str.splitlines], carriage return apart. *)
Definition is_linebreak (c : N) : bool :=
  ((c =? 10) || (c =? 11) || (c =? 12) || (c =? 28) || (c =? 29)
   || (c =? 30) || (c =? 133) || (c =? 8232) || (c =? 8233))%N.

Fixpoint drop_while (p : N -> bool) (s : str) : str :=
  match s with
  | [] => []
  | c :: t => if p c then drop_while p t else s
  end.

(** [s.lstrip()], [s.rstrip()] and [s.strip()] *)
Definition lstrip (s : str) : str := drop_while is_space s.
Definition rstrip (s : str) : str := rev (drop_while is_space (rev s)).
Definition strip (s : str) : str := rstrip (lstrip s).

(** [s.split()]: maximal runs of non-space characters, in order. [cur] is
    the token being read, most recent character first. *)
Fixpoint split_ws_from (cur : str) (s : str) : list str :=
  match s with
  | [] => match cur with [] => [] | _ => [rev cur] end
  | c :: t =>
      if is_space c
      then match cur with
           | [] => split_ws_from [] t
           | _ => rev cur :: split_ws_from [] t
           end
      else split_ws_from (c :: cur) t
  end.

Definition split_ws (s : str) : list str := split_ws_from [] s.

(** [s.split(sep)] for a one-character separator: never empty. *)
Fixpoint split_on_from (sep : N) (cur : str) (s : str) : list str :=
  match s with
  | [] => [rev cur]
  | c :: t =>
      if (c =? sep)%N then rev cur :: split_on_from sep [] t
      else split_on_from sep (c :: cur) t
  end.

Definition split_on (sep : N) (s : str) : list str := split_on_from sep [] s.

(** [sep in s] for a one-character [sep]. *)
Definition contains (sep : N) (s : str) : bool :=
  existsb (fun c => (c =? sep)%N) s.

(** [s.splitlines()]: a line ends at a line boundary, [\r\n] counts as one,
    and no empty line is added after a final boundary. *)
Fixpoint splitlines_from (cur : str) (s : str) : list str :=
  match s with
  | [] => match cur with [] => [] | _ => [rev cur] end
  | c :: t =>
      if (c =? 13)%N
      then match t with
           | c' :: t' =>
               if (c' =? 10)%N then rev cur :: splitlines_from [] t'
               else rev cur :: splitlines_from [] t
           | [] => rev cur :: splitlines_from [] t
           end
      else if is_linebreak c then rev cur :: splitlines_from [] t
      else splitlines_from (c :: cur) t
  end.

Definition splitlines (s : str) : list str := splitlines_from [] s.

(** [sep.join(parts)] *)
Fixpoint join (sep : str) (parts : list str) : str :=
  match parts with
  | [] => []
  | [p] => p
  | p :: rest => p ++ sep ++ join sep rest
  end.

(** [s[:n]] and [l[:n]] for a non-negative constant [n]. *)
Definition slice_to {A : Type} (n : nat) (l : list A) : list A := firstn n l.

(** [str(n)] for a non-negative integer. *)
Definition str_of_nat (n : nat) : str :=
  lit (NilEmpty.string_of_uint (Nat.to_uint n)).

End PyStr.

Import PyStr.

(* ================================================================== *)
(** ** Strict UTF-8 decoding: [bytes.decode("utf-8")] *)

Module Utf8.

Definition cont (b : N) : bool := ((128 <=? b) && (b <=? 191))%N.
Definition between (lo hi b : N) : bool := ((lo <=? b) && (b <=? hi))%N.

(** The payload of a continuation byte. *)
Definition low6 (b : N) : N := N.land b 63.

(** Decoding of the well-formed byte sequences of the Unicode standard
    (no overlong form, no surrogate, nothing above U+10FFFF); [None] is
    [UnicodeDecodeError]. *)
Fixpoint decode_codes (bs : list N) : option str :=
  match bs with
  | [] => Some []
  | b0 :: t0 =>
      if (b0 <? 128)%N then option_map (cons b0) (decode_codes t0)
      else if between 194 223 b0 then
        match t0 with
        | b1 :: t1 =>
            if cont b1
            then option_map
                   (cons (N.lor (N.shiftl (N.land b0 31) 6) (low6 b1)))
                   (decode_codes t1)
            else None
        | _ => None
        end
      else if between 224 239 b0 then
        match t0 with
        | b1 :: b2 :: t2 =>
            if (if (b0 =? 224)%N then between 160 191 b1
                else if (b0 =? 237)%N then between 128 159 b1
                else cont b1) && cont b2
            then option_map
                   (cons (N.lor (N.shiftl (N.land b0 15) 12)
                            (N.lor (N.shiftl (low6 b1) 6) (low6 b2))))
                   (decode_codes t2)
            else None
        | _ => None
        end
      else if between 240 244 b0 then
        match t0 with
        | b1 :: b2 :: b3 :: t3 =>
            if (if (b0 =? 240)%N then between 144 191 b1
                else if (b0 =? 244)%N then between 128 143 b1
                else cont b1) && cont b2 && cont b3
            then option_map
                   (cons (N.lor (N.shiftl (N.land b0 7) 18)
                            (N.lor (N.shiftl (low6 b1) 12)
                               (N.lor (N.shiftl (low6 b2) 6) (low6 b3)))))
                   (decode_codes t3)
            else None
        | _ => None
        end
      else None
  end.

Definition decode (content : list byte) : option str :=
  decode_codes (List.map Byte.to_N content).

(** The UTF-8 encoding of an ASCII literal, for concrete uploads. *)
Definition ascii_bytes (s : string) : list byte := list_byte_of_string s.

End Utf8.

(* ================================================================== *)
(** ** Python values of the responses *)

(** The values the endpoints build: [None], [int], [float], [str], [list]
    and [dict] (keys are the literals of the source, in insertion order). *)
#[warnings="-register-all"]
Inductive pyval : Type :=
| PNone : pyval
| PInt : Z -> pyval
| PFloat : spec_float -> pyval
| PStr : str -> pyval
| PList : list pyval -> pyval
| PDict : list (string * pyval) -> pyval.

(** [d[k]] on the entries of a dict; [None] when the key is absent. *)
Fixpoint lookup (k : string) (d : list (string * pyval)) : option pyval :=
  match d with
  | [] => None
  | (k', v) :: rest => if String.eqb k k' then Some v else lookup k rest
  end.

Definition get (k : string) (v : pyval) : option pyval :=
  match v with
  | PDict d => lookup k d
  | _ => None
  end.

Definition has_key (k : string) (v : pyval) : bool :=
  match get k v with Some _ => true | None => false end.

(* ================================================================== *)
(** ** The classifier and its call log *)

(** A computation of the engine: it may call the classifier, and every
    text handed to the classifier is appended to the call log. *)
Definition calls := list str.
Definition M (A : Type) : Type := calls -> A * calls.

Definition ret {A : Type} (a : A) : M A := fun log => (a, log).

Definition bind {A B : Type} (m : M A) (k : A -> M B) : M B :=
  fun log => let (a, log') := m log in k a log'.

Notation "x <- m ;; k" := (bind m (fun x => k))
  (at level 61, m at next level, right associativity).

(** A list comprehension [[f(x) for x in l]] whose body has effects. *)
Fixpoint for_each {A B : Type} (f : A -> M B) (l : list A) : M (list B) :=
  match l with
  | [] => ret []
  | x :: rest => y <- f x ;; ys <- for_each f rest ;; ret (y :: ys)
  end.

(** What a computation returns and what it has sent to the classifier,
    when started with an empty call log. *)
Definition response {A : Type} (m : M A) : A := fst (m []).
Definition classified {A : Type} (m : M A) : calls := snd (m []).

(* ================================================================== *)
(** ** The engine *)

Definition MAX_ROWS : nat := 500.

(** What the source does before it selects paragraphs: [requests.get],
    [raise_for_status] and the HTML parser. Either one of them raised an
    exception [e], of which the source uses [str(e)], or the document was
    parsed and [soup.find_all('p')] gave paragraph elements, of which the
    source uses the [.text], in document order. *)
Inductive fetch_outcome : Type :=
| Raised : str -> fetch_outcome
| Fetched : list str -> fetch_outcome.

Section Engine.

(** [analyzer(safe_text)[0]]: the ['label'] and the ['score'] of the first
    classification of the text. The classifier is external; it is taken as
    a function that answers on every text. *)
Variable analyzer : str -> str * spec_float.

Definition classify (safe_text : str) : M (str * spec_float) :=
  fun log => (analyzer safe_text, log ++ [safe_text]).

(** [extract_keywords] *)
Definition extract_keywords (text : str) : str :=
  let words :=
    List.map strip (List.filter (fun w => (3 <? len w)%Z) (split_ws text)) in
  match words with
  | [] => lit "General"
  | _ => join (lit ",") (slice_to 3 words)
  end.

(** [perform_analysis] *)
Definition perform_analysis (text : str) : M pyval :=
  let safe_text := slice_to 500 text in
  result <- classify safe_text ;;
  let label := fst result in
  let confidence := snd result in
  let score :=
    if str_eqb label (lit "POSITIVE") then confidence else SFopp confidence in
  ret (PDict [("text", PStr text);
              ("score", PFloat score);
              ("label", PStr label);
              ("confidence", PFloat confidence);
              ("keywords", PStr (extract_keywords text))]%string).

(** [analyze_list] *)
Definition analyze_list (items : list str) : M pyval :=
  results <- for_each perform_analysis items ;;
  ret (PDict [("total_scanned", PInt (Z.of_nat (List.length results)));
              ("results", PList results)]%string).

(** The [for line in decoded_content] loop of [analyze_file]; [results] is
    the list built so far, and the first test is the [break]. *)
Fixpoint file_loop (lines : list str) (results : list pyval)
  : M (list pyval) :=
  match lines with
  | [] => ret results
  | line :: rest =>
      if (MAX_ROWS <=? List.length results)%nat then ret results
      else
        match strip line with
        | [] => file_loop rest results
        | _ =>
            let text :=
              if contains 44 line then hd [] (split_on 44 line) else line in
            if (5 <? len (strip text))%Z
            then r <- perform_analysis text ;;
                 file_loop rest (results ++ [r])
            else file_loop rest results
        end
  end.

(** [analyze_file]. [processing_time] is the value of
    [round(time.time() - start, 4)], which the clock decides. *)
Definition analyze_file (processing_time : spec_float) (content : list byte)
  : M pyval :=
  match Utf8.decode content with
  | None =>
      ret (PDict [("error",
                   PStr (lit "Invalid file encoding. Use UTF-8."))]%string)
  | Some text =>
      let decoded_content := splitlines text in
      results <- file_loop decoded_content [] ;;
      ret (PDict
             [("total_scanned", PInt (Z.of_nat (List.length results)));
              ("results", PList results);
              ("meta",
               PDict
                 [("processing_time", PFloat processing_time);
                  ("warning",
                   if (MAX_ROWS <? List.length decoded_content)%nat
                   then PStr (lit "Capped at " ++ str_of_nat MAX_ROWS
                              ++ lit " rows to prevent timeout.")%list
                   else PNone)])]%string)
  end.

(** [scrape_url], from the outcome of the fetch on. *)
Definition scrape_url (page : fetch_outcome) : M pyval :=
  match page with
  | Raised e =>
      ret (PDict [("error", PStr (lit "Scraping failed: " ++ e)%list);
                  ("results", PList [])]%string)
  | Fetched ps =>
      let paragraphs :=
        List.map strip
          (List.filter (fun p => (20 <? len (strip p))%Z) ps) in
      let paragraphs := slice_to 50 paragraphs in
      match paragraphs with
      | [] =>
          ret (PDict
                 [("error",
                   PStr (lit "No readable paragraph text found on this URL."));
                  ("results", PList [])]%string)
      | _ =>
          results <- for_each perform_analysis paragraphs ;;
          ret (PDict
                 [("total_scanned", PInt (Z.of_nat (List.length results)));
                  ("results", PList results)]%string)
      end
  end.

End Engine.

(* ================================================================== *)
(** ** Reading a response *)

(** The [results] list of a response; empty when the key is absent. *)
Definition results_of (resp : pyval) : list pyval :=
  match get "results" resp with
  | Some (PList l) => l
  | _ => []
  end.

(** The analysis of one text, as [perform_analysis] returns it. *)
Definition result_of (analyzer : str -> str * spec_float) (text : str)
  : pyval :=
  response (perform_analysis analyzer text).

(** [meta.warning] of a response. *)
Definition warning_of (resp : pyval) : option pyval :=
  match get "meta" resp with
  | Some meta => get "warning" meta
  | None => None
  end.

Definition capped_notice : pyval :=
  PStr (lit "Capped at 500 rows to prevent timeout.").

(** The payload of a scrape that kept the paragraphs [kept]. *)
Definition scrape_payload (analyzer : str -> str * spec_float)
           (kept : list str) : pyval :=
  match kept with
  | [] =>
      PDict
        [("error"%string,
          PStr (lit "No readable paragraph text found on this URL."));
         ("results"%string, PList [])]
  | _ =>
      PDict
        [("total_scanned"%string, PInt (Z.of_nat (List.length kept)));
         ("results"%string, PList (List.map (result_of analyzer) kept))]
  end.

(* ================================================================== *)
(** ** The words of the specification *)

Module Spec.

(** The substring before the first occurrence of [sep]. *)
Fixpoint before_first (sep : N) (s : str) : str :=
  match s with
  | [] => []
  | c :: t => if (c =? sep)%N then [] else c :: before_first sep t
  end.

(** The candidate of a line of an upload: none for a line that is blank
    after trimming; otherwise the substring before the first comma when the
    line has a comma and the whole line when it has none, kept only when its
    trimmed length exceeds 5. *)
Definition candidate (line : str) : option str :=
  match strip line with
  | [] => None
  | _ =>
      let c := if contains 44 line then before_first 44 line else line in
      if (5 <? len (strip c))%Z then Some c else None
  end.

Fixpoint candidates (lines : list str) : list str :=
  match lines with
  | [] => []
  | line :: rest =>
      match candidate line with
      | Some c => c :: candidates rest
      | None => candidates rest
      end
  end.

(** The keyword fallback in the words of the specification: split on white
    space, keep the tokens longer than 3 characters, join the first three
    with a comma, and answer ["General"] when none is kept. *)
Definition keyword_fallback (text : str) : str :=
  let kept := List.filter (fun w => (3 <? len w)%Z) (split_ws text) in
  match kept with
  | [] => lit "General"
  | _ => join (lit ",") (firstn 3 kept)
  end.

(** The paragraphs a scrape keeps: the trimmed texts longer than 20
    characters, in document order. *)
Definition qualifying (ps : list str) : list str :=
  List.filter (fun p => (20 <? len p)%Z) (List.map strip ps).

End Spec.

(** A string without white space. *)
Definition no_space (w : str) : Prop :=
  forallb (fun c => negb (is_space c)) w = true.

(* ================================================================== *)
(** ** The signed score *)

Module Score.

Definition f_zero : spec_float := S754_zero false.
Definition f_one : spec_float := Eval cbv in SFone 53 1024.
Definition f_neg_one : spec_float := SFopp f_one.

(** [0 <= c <= 1] and [0 < c], with the comparisons of floats. *)
Definition in_unit (c : spec_float) : Prop :=
  SFleb f_zero c = true /\ SFleb c f_one = true.
Definition above_zero (c : spec_float) : Prop := SFltb f_zero c = true.

(** The sign of a float: 1, 0 or -1, and nothing for a NaN. *)
Definition sign (x : spec_float) : option Z :=
  match SFcompare x f_zero with
  | Some Gt => Some 1%Z
  | Some Eq => Some 0%Z
  | Some Lt => Some (-1)%Z
  | None => None
  end.

(** Label, confidence and score of a result record. *)
Definition fields (r : pyval) : option (str * spec_float * spec_float) :=
  match get "label" r, get "confidence" r, get "score" r with
  | Some (PStr l), Some (PFloat c), Some (PFloat s) => Some (l, c, s)
  | _, _, _ => None
  end.

(** A result that one of the three endpoints returns in its [results]. *)
Inductive produced (analyzer : str -> str * spec_float) (r : pyval) : Prop :=
| by_list (items : list str) :
    In r (results_of (response (analyze_list analyzer items))) ->
    produced analyzer r
| by_file (processing_time : spec_float) (content : list byte) :
    In r (results_of
            (response (analyze_file analyzer processing_time content))) ->
    produced analyzer r
| by_scrape (page : fetch_outcome) :
    In r (results_of (response (scrape_url analyzer page))) ->
    produced analyzer r.

(** The sign rule as the specification has it: for a confidence between 0
    and 1 the score equals the signed confidence, its absolute value equals
    the confidence, it lies between -1 and 1, and its sign is +1 for the
    label POSITIVE and -1 for any other label. *)
Definition sign_rule_on_unit (r : pyval) : Prop :=
  exists (l : str) (c s : spec_float),
    fields r = Some (l, c, s)
    /\ s = (if str_eqb l (lit "POSITIVE") then c else SFopp c)
    /\ (in_unit c ->
        SFeqb s (if str_eqb l (lit "POSITIVE") then c else SFopp c) = true
        /\ SFeqb (SFabs s) c = true
        /\ SFleb f_neg_one s = true /\ SFleb s f_one = true
        /\ (sign s = Some 1%Z <-> l = lit "POSITIVE")
        /\ (sign s = Some (-1)%Z <-> l <> lit "POSITIVE")).

(** The same rule with the sign of the score read off the label for a
    confidence above 0 only. *)
Definition sign_rule (r : pyval) : Prop :=
  exists (l : str) (c s : spec_float),
    fields r = Some (l, c, s)
    /\ s = (if str_eqb l (lit "POSITIVE") then c else SFopp c)
    /\ (in_unit c ->
        SFeqb s (if str_eqb l (lit "POSITIVE") then c else SFopp c) = true
        /\ SFeqb (SFabs s) c = true
        /\ SFleb f_neg_one s = true /\ SFleb s f_one = true
        /\ (above_zero c ->
            (sign s = Some 1%Z <-> l = lit "POSITIVE")
            /\ (sign s = Some (-1)%Z <-> l <> lit "POSITIVE"))).

End Score.

(* ================================================================== *)
(** ** Sample inputs *)

Module Samples.

(** 0.75 and 0.875 as binary64 values. *)
Definition f_0_75 : spec_float :=
  Eval cbv in binary_normalize 53 1024 3 (-2) false.
Definition f_0_875 : spec_float :=
  Eval cbv in binary_normalize 53 1024 7 (-3) false.

(** A classifier that likes the letter g. *)
Definition likes_g (t : str) : str * spec_float :=
  if contains 103 t then (lit "POSITIVE", f_0_75)
  else (lit "NEGATIVE", f_0_875).

(** A four-line upload: a line with a comma, a short line, a blank line
    and a plain line. *)
Definition upload : list byte :=
  Utf8.ascii_bytes "hello world,abc"
    ++ [x0a] ++ Utf8.ascii_bytes "ab"
    ++ [x0a] ++ [x0a] ++ Utf8.ascii_bytes "what a great product" ++ [x0a].

Definition upload_text : str :=
  lit "hello world,abc" ++ [10%N] ++ lit "ab" ++ [10%N; 10%N]
    ++ lit "what a great product" ++ [10%N].

(** A byte that never occurs in UTF-8. *)
Definition bad_upload : list byte := Utf8.ascii_bytes "abc" ++ [xff].

(** A page of 80 paragraphs that are long enough. *)
Definition long_page : list str :=
  repeat (lit "  A paragraph with enough text to keep.  ") 80.

(** A page whose paragraphs are all too short. *)
Definition thin_page : list str :=
  [lit "Menu"; lit "   "; lit " exactly twenty chars "].

(** A classifier that answers POSITIVE with confidence 0. *)
Definition unsure (t : str) : str * spec_float :=
  (lit "POSITIVE", S754_zero false).

(** One line of text followed by 500 empty lines: 501 lines, one
    candidate. *)
Definition padded_upload : list byte :=
  Utf8.ascii_bytes "great product overall" ++ repeat x0a 501.

Definition padded_text : str :=
  lit "great product overall" ++ repeat 10%N 501.

End Samples.

(* ================================================================== *)
(** ** The units of a request *)

(** A string that is empty or starts with a character that is no white
    space. *)
Definition starts_clean (s : str) : Prop := lstrip s = s.

(** A string without a line boundary. *)
Definition one_line (s : str) : Prop :=
  forallb (fun c => negb ((c =? 13)%N || is_linebreak c)) s = true.

(** What holds of a text the file endpoint analyses. *)
Definition file_text_ok (t : str) : Prop :=
  contains 44 t = false /\ (5 < len (strip t))%Z /\ one_line t.

(** The texts the file endpoint hands to [perform_analysis]: none when the
    upload does not decode. *)
Definition file_units (content : list byte) : list str :=
  match Utf8.decode content with
  | Some text => firstn MAX_ROWS (Spec.candidates (splitlines text))
  | None => []
  end.

(** The texts the scrape endpoint hands to [perform_analysis]: none when
    the fetch raised. *)
Definition scrape_units (page : fetch_outcome) : list str :=
  match page with
  | Raised _ => []
  | Fetched ps => firstn 50 (Spec.qualifying ps)
  end.

Module MoreSamples.

(** Two texts of 501 and 502 characters with the same first 500. *)
Definition long_a : str := repeat 97%N 500 ++ lit "x".
Definition long_b : str := repeat 97%N 500 ++ lit "yz".

(** 500 lines that all qualify, and a line after them. *)
Definition full_lines : list str := repeat (lit "a fine line") 500.
Definition late_lines : list str := [lit "one more line"].

End MoreSamples.

(* ================================================================== *)
(** ** Running the engine *)

Section Runs.

Variable analyzer : str -> str * spec_float.

Lemma perform_analysis_run (text : str) (log : calls) :
  perform_analysis analyzer text log
  = (result_of analyzer text, log ++ [slice_to 500 text]).
Proof. reflexivity. Qed.

Lemma for_each_run (l : list str) (log : calls) :
  for_each (perform_analysis analyzer) l log
  = (List.map (result_of analyzer) l, log ++ List.map (slice_to 500) l).
Proof.
  revert log; induction l as [|t l IH]; intros log.
  - cbn. now rewrite app_nil_r.
  - cbn [for_each List.map]. unfold bind.
    rewrite perform_analysis_run, IH. cbn.
    now rewrite <- app_assoc.
Qed.

Lemma hd_split_on_from (sep : N) (s cur : str) :
  hd [] (split_on_from sep cur s) = rev cur ++ Spec.before_first sep s.
Proof.
  revert cur; induction s as [|c t IH]; intros cur; cbn.
  - now rewrite app_nil_r.
  - destruct (c =? sep)%N.
    + cbn. now rewrite app_nil_r.
    + rewrite IH. cbn. now rewrite <- app_assoc.
Qed.

Lemma hd_split_on (sep : N) (s : str) :
  hd [] (split_on sep s) = Spec.before_first sep s.
Proof. unfold split_on. now rewrite hd_split_on_from. Qed.

(** The loop of [analyze_file] analyses the candidates of the lines it is
    given, in order, until the list it builds has [MAX_ROWS] entries. *)
Lemma file_loop_run (lines : list str) :
  forall (results : list pyval) (log : calls),
    let room := (MAX_ROWS - List.length results)%nat in
    file_loop analyzer lines results log
    = (results
         ++ List.map (result_of analyzer) (firstn room (Spec.candidates lines)),
       log ++ List.map (slice_to 500) (firstn room (Spec.candidates lines))).
Proof.
  induction lines as [|line rest IH]; intros results log room; subst room.
  - cbn [file_loop Spec.candidates]. rewrite firstn_nil. cbn.
    now rewrite !app_nil_r.
  - cbn [file_loop Spec.candidates].
    destruct (Nat.leb_spec MAX_ROWS (List.length results)) as [Hfull|Hroom].
    + replace (MAX_ROWS - List.length results)%nat with 0%nat by lia.
      cbn. now rewrite !app_nil_r.
    + unfold Spec.candidate. destruct (strip line) as [|c0 l0] eqn:Hs.
      * apply IH.
      * rewrite hd_split_on.
        cbv zeta.
        destruct (contains 44 line);
          match goal with
          | |- context [(5 <? len (strip ?t))%Z] =>
              destruct (5 <? len (strip t))%Z
          end.
        2, 4: apply IH.
        all: unfold bind; rewrite perform_analysis_run, IH;
          rewrite length_app; cbn [List.length];
          replace (MAX_ROWS - List.length results)%nat
            with (S (MAX_ROWS - (List.length results + 1)))%nat by lia;
          cbn [firstn List.map];
          f_equal; rewrite <- app_assoc; reflexivity.
Qed.

End Runs.

(* ================================================================== *)
(** ** The endpoints, run from any call log *)

Section Endpoints.

Variable analyzer : str -> str * spec_float.

Lemma analyze_list_run (items : list str) (log : calls) :
  analyze_list analyzer items log
  = (PDict [("total_scanned"%string, PInt (Z.of_nat (List.length items)));
            ("results"%string, PList (List.map (result_of analyzer) items))],
     log ++ List.map (slice_to 500) items).
Proof.
  unfold analyze_list, bind. rewrite for_each_run. unfold ret.
  now rewrite length_map.
Qed.

Lemma analyze_file_run (processing_time : spec_float) (content : list byte)
      (text : str) (log : calls) :
  Utf8.decode content = Some text ->
  let lines := splitlines text in
  let accepted := firstn MAX_ROWS (Spec.candidates lines) in
  analyze_file analyzer processing_time content log
  = (PDict
       [("total_scanned"%string, PInt (Z.of_nat (List.length accepted)));
        ("results"%string, PList (List.map (result_of analyzer) accepted));
        ("meta"%string,
         PDict
           [("processing_time"%string, PFloat processing_time);
            ("warning"%string,
             if (MAX_ROWS <? List.length lines)%nat
             then PStr (lit "Capped at " ++ str_of_nat MAX_ROWS
                        ++ lit " rows to prevent timeout.")
             else PNone)])],
     log ++ List.map (slice_to 500) accepted).
Proof.
  intros Hdec lines accepted. unfold analyze_file. rewrite Hdec.
  unfold bind. rewrite file_loop_run. cbn [List.length app].
  rewrite Nat.sub_0_r. fold lines. fold accepted. unfold ret.
  now rewrite length_map.
Qed.

Lemma scrape_selects (ps : list str) :
  List.map strip (List.filter (fun p => (20 <? len (strip p))%Z) ps)
  = Spec.qualifying ps.
Proof.
  unfold Spec.qualifying. induction ps as [|p ps IH]; cbn; [reflexivity|].
  destruct (20 <? len (strip p))%Z; cbn; now rewrite IH.
Qed.

Lemma scrape_url_run (ps : list str) (log : calls) :
  let kept := firstn 50 (Spec.qualifying ps) in
  scrape_url analyzer (Fetched ps) log
  = (scrape_payload analyzer kept, log ++ List.map (slice_to 500) kept).
Proof.
  intros kept. unfold scrape_url. rewrite scrape_selects.
  change (slice_to 50 (Spec.qualifying ps)) with kept.
  clearbody kept. destruct kept as [|k ks].
  - cbn. now rewrite app_nil_r.
  - unfold bind. rewrite for_each_run. unfold ret, scrape_payload.
    now rewrite length_map.
Qed.

Lemma scrape_payload_results (kept : list str) :
  results_of (scrape_payload analyzer kept)
  = List.map (result_of analyzer) kept.
Proof. destruct kept; reflexivity. Qed.

Lemma scrape_payload_total (kept : list str) :
  kept <> [] ->
  get "total_scanned" (scrape_payload analyzer kept)
  = Some (PInt (Z.of_nat (List.length kept))).
Proof. destruct kept; [congruence | reflexivity]. Qed.

End Endpoints.


(* ================================================================== *)
(** ** The list endpoint *)

(** C2. The list endpoint returns one result per input item, the i-th
    result being the analysis of the i-th item, and [total_scanned] is the
    number of items. It holds for every list, the non-empty ones among
    them. *)
Theorem analyze_list_one_result_per_item
        (analyzer : str -> str * spec_float) (items : list str) :
  let resp := response (analyze_list analyzer items) in
  get "results" resp = Some (PList (List.map (result_of analyzer) items))
  /\ List.length (results_of resp) = List.length items
  /\ (forall i : nat,
        nth_error (results_of resp) i
        = option_map (result_of analyzer) (nth_error items i))
  /\ get "total_scanned" resp = Some (PInt (Z.of_nat (List.length items))).
Proof.
  intros resp. subst resp. unfold response, results_of.
  rewrite analyze_list_run. cbn [fst get lookup String.eqb].
  cbn. repeat split.
  - apply length_map.
  - intros i. apply nth_error_map.
Qed.

(** C10. On the empty list the list endpoint succeeds with
    [{"total_scanned": 0, "results": []}], has no [error] key and calls
    the classifier on nothing. *)
Theorem analyze_list_empty
        (analyzer : str -> str * spec_float) (log : calls) :
  analyze_list analyzer [] log
  = (PDict [("total_scanned"%string, PInt 0); ("results"%string, PList [])],
     log)
  /\ has_key "error" (fst (analyze_list analyzer [] log)) = false.
Proof. split; reflexivity. Qed.

(* ================================================================== *)
(** ** The per-unit analysis *)

(** C6. The classifier receives the first 500 characters of the text, at
    most 500 characters, while the record carries the whole text and the
    keywords of the whole text; label and confidence are those of the
    truncated text. *)
Theorem perform_analysis_truncates_classifier_input_only
        (analyzer : str -> str * spec_float) (text : str) (log : calls) :
  let sent := firstn 500 text in
  let out := perform_analysis analyzer text log in
  snd out = log ++ [sent]
  /\ (List.length sent <= 500)%nat
  /\ (exists rest : str, text = sent ++ rest)
  /\ get "text" (fst out) = Some (PStr text)
  /\ get "keywords" (fst out) = Some (PStr (extract_keywords text))
  /\ get "label" (fst out) = Some (PStr (fst (analyzer sent)))
  /\ get "confidence" (fst out) = Some (PFloat (snd (analyzer sent))).
Proof.
  intros sent out. subst out. rewrite perform_analysis_run.
  cbn [fst snd]. repeat split.
  - apply firstn_le_length.
  - exists (skipn 500 text). subst sent. now rewrite firstn_skipn.
Qed.

(* ================================================================== *)
(** ** The file endpoint *)

Lemma firstn_min_length {A : Type} (n : nat) (l : list A) :
  firstn (Nat.min (List.length l) n) l = firstn n l.
Proof.
  destruct (Nat.le_ge_cases (List.length l) n) as [H|H].
  - rewrite Nat.min_l by exact H.
    now rewrite firstn_all, firstn_all2.
  - now rewrite Nat.min_r by exact H.
Qed.

Lemma text_of_result (analyzer : str -> str * spec_float) (cs : list str) :
  List.map (get "text") (List.map (result_of analyzer) cs)
  = List.map (fun c => Some (PStr c)) cs.
Proof. rewrite map_map. apply map_ext. reflexivity. Qed.

Lemma analyze_file_total
      (analyzer : str -> str * spec_float) (processing_time : spec_float)
      (content : list byte) (text : str) :
  Utf8.decode content = Some text ->
  get "total_scanned"
    (response (analyze_file analyzer processing_time content))
  = Some (PInt (Z.of_nat
                  (Nat.min (List.length (Spec.candidates (splitlines text)))
                     MAX_ROWS))).
Proof.
  intros Hdec. unfold response.
  rewrite (analyze_file_run analyzer processing_time content [] Hdec).
  cbn [fst get lookup String.eqb Ascii.eqb Bool.eqb].
  now rewrite length_firstn, Nat.min_comm.
Qed.

(** C4. For an upload that decodes as UTF-8, the texts analysed are the
    first min(Q, 500) candidates of its lines, in line order; [total_scanned]
    is that number, and the classifier is called on these candidates only. *)
Theorem analyze_file_takes_first_candidates
        (analyzer : str -> str * spec_float) (processing_time : spec_float)
        (content : list byte) (text : str)
        (Hdec : Utf8.decode content = Some text) :
  let cs := Spec.candidates (splitlines text) in
  let taken := firstn (Nat.min (List.length cs) MAX_ROWS) cs in
  let run := analyze_file analyzer processing_time content in
  results_of (response run) = List.map (result_of analyzer) taken
  /\ List.map (get "text") (results_of (response run))
     = List.map (fun c => Some (PStr c)) taken
  /\ get "total_scanned" (response run)
     = Some (PInt (Z.of_nat (Nat.min (List.length cs) MAX_ROWS)))
  /\ classified run = List.map (slice_to 500) taken.
Proof.
  intros cs taken run. subst run taken.
  unfold response, classified, results_of.
  rewrite (analyze_file_run analyzer processing_time content [] Hdec).
  fold cs. rewrite firstn_min_length.
  cbn [fst snd get lookup String.eqb Ascii.eqb Bool.eqb app].
  repeat split.
  - apply text_of_result.
  - rewrite length_firstn. now rewrite Nat.min_comm.
Qed.

(** On the sample upload the candidates are the first column of the first
    line and the last line. *)
Lemma analyze_file_takes_first_candidates_witness :
  results_of
    (response
       (analyze_file Samples.likes_g (S754_zero false) Samples.upload))
  = List.map (result_of Samples.likes_g)
      [lit "hello world"; lit "what a great product"].
Proof.
  exact (proj1 (analyze_file_takes_first_candidates
                  Samples.likes_g (S754_zero false)
                  Samples.upload (text := Samples.upload_text) eq_refl)).
Defined.

(** C7. An upload that is not valid UTF-8 fails as a whole: the response
    is the encoding error alone, without [results] and without [meta], and
    the classifier is not called. *)
Theorem analyze_file_invalid_utf8
        (analyzer : str -> str * spec_float) (processing_time : spec_float)
        (content : list byte) (log : calls)
        (Hbad : Utf8.decode content = None) :
  let out := analyze_file analyzer processing_time content log in
  fst out = PDict [("error"%string,
                    PStr (lit "Invalid file encoding. Use UTF-8."))]
  /\ snd out = log
  /\ has_key "results" (fst out) = false
  /\ has_key "meta" (fst out) = false.
Proof.
  intros out. subst out. unfold analyze_file. rewrite Hbad.
  repeat split.
Qed.

Lemma analyze_file_invalid_utf8_witness :
  let out :=
    analyze_file Samples.likes_g (S754_zero false) Samples.bad_upload [] in
  fst out = PDict [("error"%string,
                    PStr (lit "Invalid file encoding. Use UTF-8."))]
  /\ snd out = []
  /\ has_key "results" (fst out) = false
  /\ has_key "meta" (fst out) = false.
Proof.
  exact (analyze_file_invalid_utf8
           Samples.likes_g (S754_zero false) Samples.bad_upload [] eq_refl).
Defined.

(* ================================================================== *)
(** ** The scrape endpoint *)

(** C8. For every fetched document the texts classified are the trimmed
    paragraph texts longer than 20 characters, cut to the first 50 in
    document order; when there is one at least, [total_scanned] is their
    number capped at 50, which is 50 for a page of 80 of them. *)
Theorem scrape_classifies_first_fifty
        (analyzer : str -> str * spec_float) (ps : list str) :
  let q := Spec.qualifying ps in
  let run := scrape_url analyzer (Fetched ps) in
  classified run = List.map (slice_to 500) (firstn 50 q)
  /\ results_of (response run) = List.map (result_of analyzer) (firstn 50 q)
  /\ List.map (get "text") (results_of (response run))
     = List.map (fun p => Some (PStr p)) (firstn 50 q)
  /\ (q <> [] ->
      get "total_scanned" (response run)
      = Some (PInt (Z.of_nat (Nat.min (List.length q) 50))))
  /\ (List.length q = 80%nat ->
      get "total_scanned" (response run) = Some (PInt 50)).
Proof.
  intros q run. subst run. unfold response, classified.
  rewrite scrape_url_run. fold q. cbn [fst snd app].
  rewrite scrape_payload_results.
  assert (Htot : q <> [] ->
                 get "total_scanned" (scrape_payload analyzer (firstn 50 q))
                 = Some (PInt (Z.of_nat (Nat.min (List.length q) 50)))).
  { intros Hq. rewrite scrape_payload_total.
    - now rewrite length_firstn, Nat.min_comm.
    - destruct q; [congruence | discriminate]. }
  repeat split.
  - apply text_of_result.
  - exact Htot.
  - intros H80. rewrite Htot.
    + now rewrite H80.
    + intros Hnil. rewrite Hnil in H80. discriminate H80.
Qed.

(** A page of 80 long paragraphs is scanned for 50 of them. *)
Lemma scrape_classifies_first_fifty_witness :
  get "total_scanned"
    (response (scrape_url Samples.likes_g (Fetched Samples.long_page)))
  = Some (PInt 50).
Proof.
  apply (scrape_classifies_first_fifty Samples.likes_g Samples.long_page).
  vm_compute. reflexivity.
Defined.

(** C9. A fetched document without a paragraph of trimmed length above 20
    yields the "no readable text" payload with an empty [results], and the
    classifier is not called. *)
Theorem scrape_without_readable_paragraph
        (analyzer : str -> str * spec_float) (ps : list str) (log : calls)
        (Hnone : Spec.qualifying ps = []) :
  scrape_url analyzer (Fetched ps) log
  = (PDict [("error"%string,
             PStr (lit "No readable paragraph text found on this URL."));
            ("results"%string, PList [])],
     log).
Proof.
  rewrite scrape_url_run, Hnone. cbn. now rewrite app_nil_r.
Qed.

Lemma scrape_without_readable_paragraph_witness :
  scrape_url Samples.likes_g (Fetched Samples.thin_page) []
  = (PDict [("error"%string,
             PStr (lit "No readable paragraph text found on this URL."));
            ("results"%string, PList [])],
     []).
Proof.
  exact (scrape_without_readable_paragraph
           Samples.likes_g Samples.thin_page [] eq_refl).
Defined.

(* ================================================================== *)
(** ** The keyword fallback *)


Lemma no_space_rev (w : str) : no_space w -> no_space (rev w).
Proof.
  unfold no_space. rewrite !forallb_forall.
  intros H c Hc. apply H. now apply in_rev.
Qed.

Lemma drop_while_no_space (w : str) :
  no_space w -> drop_while is_space w = w.
Proof.
  unfold no_space. destruct w as [|c t]; cbn; [reflexivity|].
  intros H. apply andb_prop in H. destruct H as [Hc _].
  destruct (is_space c); [discriminate Hc | reflexivity].
Qed.

(** Trimming changes nothing in a string without white space. *)
Lemma strip_no_space (w : str) : no_space w -> strip w = w.
Proof.
  intros H. unfold strip, rstrip, lstrip.
  rewrite (drop_while_no_space H).
  rewrite (drop_while_no_space (no_space_rev H)).
  apply rev_involutive.
Qed.

(** The tokens of [split] hold no white space. *)
Lemma split_ws_from_no_space (s : str) :
  forall cur : str,
    no_space cur -> Forall no_space (split_ws_from cur s).
Proof.
  induction s as [|c t IH]; intros cur Hcur; cbn.
  - destruct cur; constructor; [|constructor].
    now apply no_space_rev.
  - destruct (is_space c) eqn:Hc.
    + destruct cur.
      * now apply IH.
      * constructor; [now apply no_space_rev | now apply IH].
    + apply IH. unfold no_space in *. cbn. now rewrite Hc.
Qed.

Lemma split_ws_no_space (s : str) : Forall no_space (split_ws s).
Proof. now apply split_ws_from_no_space. Qed.

Lemma map_strip_tokens (ws : list str) :
  Forall no_space ws -> List.map strip ws = ws.
Proof.
  induction 1 as [|w ws Hw _ IH]; cbn; [reflexivity|].
  now rewrite (strip_no_space Hw), IH.
Qed.

(** C5. The keyword fallback of the source is the one the specification
    words: white-space tokens longer than 3 characters, in order, the first
    three joined by a comma, and ["General"] when there is none; with the
    two examples of the specification. *)
Theorem extract_keywords_is_keyword_fallback :
  (forall text : str, extract_keywords text = Spec.keyword_fallback text)
  /\ extract_keywords (lit "The quick brown fox jumps")
     = lit "quick,brown,jumps"
  /\ extract_keywords (lit "a b c") = lit "General".
Proof.
  split; [|split; reflexivity].
  intros text. unfold extract_keywords, Spec.keyword_fallback, slice_to.
  rewrite map_strip_tokens; [reflexivity|].
  apply incl_Forall with (l1 := split_ws text).
  - intros w Hw. apply filter_In in Hw. tauto.
  - apply split_ws_no_space.
Qed.

(* ================================================================== *)
(** ** The sign rule of the score *)

Section ScoreFacts.

Import Score.

Lemma str_eqb_eq (a b : str) : str_eqb a b = true <-> a = b.
Proof.
  unfold str_eqb. destruct (list_eq_dec N.eq_dec a b); split;
    congruence.
Qed.

(** Comparison of two negated floats is the comparison of the floats, the
    other way round. *)
Lemma SFcompare_opp (a b : spec_float) :
  SFcompare (SFopp a) (SFopp b) = SFcompare b a.
Proof.
  destruct a as [sa|sa| |sa ma ea], b as [sb|sb| |sb mb eb];
    try destruct sa; try destruct sb; cbn; try reflexivity.
  - rewrite (Z.compare_antisym ea eb).
    destruct (ea ?= eb)%Z; cbn; try reflexivity.
    now rewrite Pos.compare_cont_antisym.
  - rewrite (Z.compare_antisym ea eb).
    destruct (ea ?= eb)%Z; cbn; try reflexivity.
    now rewrite Pos.compare_cont_antisym.
Qed.

Lemma SFleb_opp (a b : spec_float) :
  SFleb (SFopp a) (SFopp b) = SFleb b a.
Proof. unfold SFleb. now rewrite SFcompare_opp. Qed.

Lemma SFeqb_refl_finite (s : bool) (m : positive) (e : Z) :
  SFeqb (S754_finite s m e) (S754_finite s m e) = true.
Proof.
  unfold SFeqb. cbn. rewrite Z.compare_refl.
  change (Pos.compare_cont Eq m m) with (Pos.compare m m).
  rewrite Pos.compare_refl. now destruct s.
Qed.

(** A confidence between 0 and 1 is a zero or a positive finite number. *)
Lemma in_unit_cases (c : spec_float) :
  in_unit c ->
  (exists s : bool, c = S754_zero s)
  \/ (exists (m : positive) (e : Z), c = S754_finite false m e).
Proof.
  intros [H0 H1]. destruct c as [s|s| |s m e].
  - left. now exists s.
  - destruct s; discriminate.
  - discriminate.
  - destruct s; [discriminate H0|]. right. now exists m, e.
Qed.

Lemma signed_eq_itself (b : bool) (c : spec_float) :
  in_unit c ->
  SFeqb (if b then c else SFopp c) (if b then c else SFopp c) = true.
Proof.
  intros H. destruct (in_unit_cases H) as [[s ->]|(m & e & ->)].
  - now destruct b, s.
  - destruct b; cbn [SFopp negb]; apply SFeqb_refl_finite.
Qed.

Lemma abs_of_signed (b : bool) (c : spec_float) :
  in_unit c -> SFeqb (SFabs (if b then c else SFopp c)) c = true.
Proof.
  intros H. destruct (in_unit_cases H) as [[s ->]|(m & e & ->)].
  - now destruct b, s.
  - destruct b; cbn [SFopp SFabs negb]; apply SFeqb_refl_finite.
Qed.

Lemma signed_in_range (b : bool) (c : spec_float) :
  in_unit c ->
  SFleb f_neg_one (if b then c else SFopp c) = true
  /\ SFleb (if b then c else SFopp c) f_one = true.
Proof.
  intros H. pose proof H as [H0 H1]. destruct b.
  - split; [|exact H1].
    destruct (in_unit_cases H) as [[s ->]|(m & e & ->)]; reflexivity.
  - split.
    + unfold f_neg_one. now rewrite SFleb_opp.
    + destruct (in_unit_cases H) as [[s ->]|(m & e & ->)]; reflexivity.
Qed.

Lemma sign_of_signed (b : bool) (c : spec_float) :
  in_unit c -> above_zero c ->
  sign (if b then c else SFopp c) = Some (if b then 1%Z else (-1)%Z).
Proof.
  intros H Hpos. destruct (in_unit_cases H) as [[s ->]|(m & e & ->)].
  - destruct s; discriminate Hpos.
  - now destruct b.
Qed.

Variable analyzer : str -> str * spec_float.

(** Every result of an endpoint is the analysis of some text. *)
Lemma produced_is_analysis (r : pyval) :
  produced analyzer r -> exists text : str, r = result_of analyzer text.
Proof.
  assert (Hmap : forall l : list str,
             In r (List.map (result_of analyzer) l) ->
             exists text : str, r = result_of analyzer text).
  { intros l Hin. apply in_map_iff in Hin. destruct Hin as (t & <- & _).
    now exists t. }
  intros [items Hin | processing_time content Hin | page Hin];
    unfold response in Hin.
  - rewrite analyze_list_run in Hin. exact (Hmap _ Hin).
  - destruct (Utf8.decode content) as [text|] eqn:Hdec.
    + rewrite (analyze_file_run analyzer processing_time content [] Hdec)
        in Hin.
      exact (Hmap _ Hin).
    + unfold analyze_file in Hin. rewrite Hdec in Hin. destruct Hin.
  - destruct page as [e|ps].
    + destruct Hin.
    + rewrite scrape_url_run in Hin. cbn [fst] in Hin.
      rewrite scrape_payload_results in Hin. exact (Hmap _ Hin).
Qed.

Lemma fields_of_analysis (text : str) :
  let l := fst (analyzer (slice_to 500 text)) in
  let c := snd (analyzer (slice_to 500 text)) in
  fields (result_of analyzer text)
  = Some (l, c, if str_eqb l (lit "POSITIVE") then c else SFopp c).
Proof. reflexivity. Qed.

End ScoreFacts.

(** C1, amended. For every result of the three endpoints the score is the
    confidence when the label is POSITIVE and its negation otherwise; for a
    confidence between 0 and 1 the absolute value of the score equals the
    confidence and the score lies between -1 and 1; and for a confidence
    above 0 the sign of the score is +1 exactly for the label POSITIVE and
    -1 exactly for any other label. *)
Theorem score_follows_label
        (analyzer : str -> str * spec_float) (r : pyval)
        (Hr : Score.produced analyzer r) :
  Score.sign_rule r.
Proof.
  destruct (produced_is_analysis Hr) as [text ->].
  set (l := fst (analyzer (slice_to 500 text))).
  set (c := snd (analyzer (slice_to 500 text))).
  exists l, c, (if str_eqb l (lit "POSITIVE") then c else SFopp c).
  split; [apply fields_of_analysis|]. split; [reflexivity|].
  intros Hunit. split; [now apply signed_eq_itself|].
  split; [now apply abs_of_signed|].
  destruct (signed_in_range (str_eqb l (lit "POSITIVE")) Hunit) as [Hlo Hhi].
  split; [exact Hlo|]. split; [exact Hhi|].
  intros Hpos. rewrite (sign_of_signed _ Hunit Hpos).
  pose proof (str_eqb_eq l (lit "POSITIVE")) as Heq.
  destruct (str_eqb l (lit "POSITIVE")).
  - assert (Hl : l = lit "POSITIVE") by now apply Heq.
    split; split; try reflexivity; try discriminate; congruence.
  - assert (Hl : l <> lit "POSITIVE").
    { intros E. apply Heq in E. discriminate E. }
    split; split; try reflexivity; try discriminate; congruence.
Qed.

Lemma score_follows_label_witness :
  Score.sign_rule (result_of Samples.likes_g (lit "good stuff")).
Proof.
  apply (score_follows_label (analyzer := Samples.likes_g)).
  apply Score.by_list with (items := [lit "good stuff"]).
  left. reflexivity.
Defined.

(** C1 as stated fails: the list endpoint, with a classifier of confidence
    0, returns a POSITIVE result whose score is 0 and has sign 0. *)
Lemma sign_rule_fails_at_zero_confidence :
  ~ (forall (analyzer : str -> str * spec_float) (r : pyval),
        Score.produced analyzer r -> Score.sign_rule_on_unit r).
Proof.
  intros H.
  assert (Hr : Score.produced Samples.unsure
                 (result_of Samples.unsure (lit "fine"))).
  { apply Score.by_list with (items := [lit "fine"]). left. reflexivity. }
  destruct (H _ _ Hr) as (l & c & s & Hf & _ & Hrule).
  change (Some (lit "POSITIVE", S754_zero false, S754_zero false)
          = Some (l, c, s)) in Hf.
  injection Hf as <- <- <-.
  destruct (Hrule (conj eq_refl eq_refl))
    as (_ & _ & _ & _ & [_ Hsign] & _).
  discriminate (Hsign eq_refl).
Qed.

(* ================================================================== *)
(** ** The warning of the file endpoint *)


Lemma candidates_length (lines : list str) :
  (List.length (Spec.candidates lines) <= List.length lines)%nat.
Proof.
  induction lines as [|line rest IH]; cbn; [lia|].
  destruct (Spec.candidate line); cbn; lia.
Qed.

(** The warning is decided by the number of lines of the upload, blank and
    short lines included. *)
Lemma analyze_file_warning
      (analyzer : str -> str * spec_float) (processing_time : spec_float)
      (content : list byte) (text : str) :
  Utf8.decode content = Some text ->
  warning_of (response (analyze_file analyzer processing_time content))
  = Some (if (MAX_ROWS <? List.length (splitlines text))%nat
          then capped_notice else PNone).
Proof.
  intros Hdec. unfold response.
  rewrite (analyze_file_run analyzer processing_time content [] Hdec).
  reflexivity.
Qed.

(** More than 500 candidates: 500 are scanned and the warning is set. *)
Lemma analyze_file_warns_when_capped
      (analyzer : str -> str * spec_float) (processing_time : spec_float)
      (content : list byte) (text : str) :
  Utf8.decode content = Some text ->
  (MAX_ROWS < List.length (Spec.candidates (splitlines text)))%nat ->
  let resp := response (analyze_file analyzer processing_time content) in
  get "total_scanned" resp = Some (PInt 500)
  /\ warning_of resp = Some capped_notice.
Proof.
  intros Hdec Hover resp. subst resp. split.
  - rewrite (analyze_file_total analyzer processing_time content Hdec).
    rewrite Nat.min_r by lia. reflexivity.
  - rewrite (analyze_file_warning analyzer processing_time content Hdec).
    pose proof (candidates_length (splitlines text)) as Hle.
    destruct (Nat.ltb_spec MAX_ROWS (List.length (splitlines text)));
      [reflexivity | lia].
Qed.

(** C3, on an upload of 501 lines of which one qualifies: one text is
    scanned, nothing is cut, and the warning says the upload was capped. *)
Theorem analyze_file_warns_without_capping
        (analyzer : str -> str * spec_float) (processing_time : spec_float) :
  let resp :=
    response (analyze_file analyzer processing_time Samples.padded_upload) in
  Utf8.decode Samples.padded_upload = Some Samples.padded_text
  /\ List.length (splitlines Samples.padded_text) = 501%nat
  /\ Spec.candidates (splitlines Samples.padded_text)
     = [lit "great product overall"]
  /\ get "total_scanned" resp = Some (PInt 1)
  /\ warning_of resp = Some capped_notice.
Proof.
  intros resp. subst resp.
  assert (Hdec : Utf8.decode Samples.padded_upload
                 = Some Samples.padded_text) by (vm_compute; reflexivity).
  assert (Hcs : Spec.candidates (splitlines Samples.padded_text)
                = [lit "great product overall"]) by (vm_compute; reflexivity).
  assert (Hlen : List.length (splitlines Samples.padded_text) = 501%nat)
    by (vm_compute; reflexivity).
  split; [exact Hdec|]. split; [exact Hlen|]. split; [exact Hcs|]. split.
  - rewrite (analyze_file_total analyzer processing_time
               Samples.padded_upload Hdec).
    rewrite Hcs. reflexivity.
  - rewrite (analyze_file_warning analyzer processing_time
               Samples.padded_upload Hdec).
    rewrite Hlen. reflexivity.
Qed.

(* ================================================================== *)
(** ** More on the keyword fallback *)

Lemma no_space_app (a b : str) :
  no_space (a ++ b) <-> no_space a /\ no_space b.
Proof.
  unfold no_space. rewrite forallb_app. apply andb_true_iff.
Qed.

Lemma kept_tokens_no_space (text : str) :
  Forall no_space
    (List.filter (fun w => (3 <? len w)%Z) (split_ws text)).
Proof.
  apply incl_Forall with (l1 := split_ws text).
  - intros w Hw. apply filter_In in Hw. tauto.
  - apply split_ws_no_space.
Qed.

(** The keywords are computed from the kept tokens themselves. *)
Lemma extract_keywords_tokens (text : str) :
  extract_keywords text
  = match List.filter (fun w => (3 <? len w)%Z) (split_ws text) with
    | [] => lit "General"
    | kept => join (lit ",") (firstn 3 kept)
    end.
Proof.
  unfold extract_keywords, slice_to.
  rewrite (map_strip_tokens (kept_tokens_no_space text)).
  now destruct (List.filter (fun w => (3 <? len w)%Z) (split_ws text)).
Qed.

Lemma join_comma_no_space (ws : list str) :
  Forall no_space ws -> no_space (join (lit ",") ws).
Proof.
  induction 1 as [|w ws Hw Hws IH]; [reflexivity|].
  destruct ws as [|w' ws']; [exact Hw|].
  change (no_space (w ++ lit "," ++ join (lit ",") (w' :: ws'))).
  apply no_space_app. split; [exact Hw|].
  apply no_space_app. split; [reflexivity | exact IH].
Qed.

Lemma join_length_head (sep w : str) (ws : list str) :
  (List.length w <= List.length (join sep (w :: ws)))%nat.
Proof.
  destruct ws as [|w' ws']; cbn [join]; [lia|].
  rewrite length_app. lia.
Qed.

Lemma Forall_firstn_of {A : Type} (P : A -> Prop) (n : nat) (l : list A) :
  Forall P l -> Forall P (firstn n l).
Proof.
  intros H. apply incl_Forall with (l1 := l); [|exact H].
  intros x Hx. rewrite <- (firstn_skipn n l). apply in_or_app. now left.
Qed.

(** Shape of the keywords: no white space, and four characters at least. *)
Lemma extract_keywords_shape (text : str) :
  no_space (extract_keywords text)
  /\ (4 <= List.length (extract_keywords text))%nat.
Proof.
  rewrite extract_keywords_tokens.
  pose proof (kept_tokens_no_space text) as Hns.
  destruct (List.filter (fun w => (3 <? len w)%Z) (split_ws text))
    as [|w ws] eqn:Hk.
  - split; [reflexivity | cbn; lia].
  - split.
    + apply join_comma_no_space. now apply Forall_firstn_of.
    + assert (Hw : In w (List.filter (fun w => (3 <? len w)%Z)
                           (split_ws text))) by (rewrite Hk; now left).
      apply filter_In in Hw. destruct Hw as [_ Hw].
      apply Z.ltb_lt in Hw. unfold len in Hw.
      change (firstn 3 (w :: ws)) with (w :: firstn 2 ws).
      pose proof (join_length_head (lit ",") w (firstn 2 ws)). lia.
Qed.

(** A string without white space is its own single token. *)
Lemma split_ws_from_single (s : str) :
  forall cur : str,
    no_space s ->
    split_ws_from cur s
    = match rev cur ++ s with [] => [] | w => [w] end.
Proof.
  induction s as [|c t IH]; intros cur Hs.
  - cbn. rewrite app_nil_r. destruct cur as [|c cur]; [reflexivity|].
    destruct (rev (c :: cur)) eqn:Hr; [|reflexivity].
    apply (f_equal (@List.length N)) in Hr. rewrite length_rev in Hr.
    discriminate Hr.
  - unfold no_space in Hs. cbn in Hs. apply andb_prop in Hs.
    destruct Hs as [Hc Ht]. cbn [split_ws_from].
    destruct (is_space c); [discriminate Hc|].
    rewrite (IH (c :: cur) Ht). cbn [rev]. now rewrite <- app_assoc.
Qed.

(** X1. The keyword fallback is idempotent: the keywords of a keyword
    string are that string. *)
Theorem extract_keywords_idempotent (text : str) :
  extract_keywords (extract_keywords text) = extract_keywords text.
Proof.
  destruct (extract_keywords_shape text) as [Hns Hlen].
  set (k := extract_keywords text) in *.
  rewrite (extract_keywords_tokens k). unfold split_ws.
  rewrite (split_ws_from_single [] Hns). cbn [rev app].
  destruct k as [|c k']; [cbn in Hlen; lia|].
  cbn [List.filter].
  assert (Hk : (3 <? len (c :: k'))%Z = true).
  { apply Z.ltb_lt. unfold len. lia. }
  rewrite Hk. reflexivity.
Qed.

(** X2. The keywords are never empty and hold no white space: they are
    ["General"] or tokens of four characters at least joined by commas. *)
Theorem extract_keywords_never_blank (text : str) :
  extract_keywords text <> []
  /\ (4 <= len (extract_keywords text))%Z
  /\ forallb (fun c => negb (is_space c)) (extract_keywords text) = true
  /\ strip (extract_keywords text) = extract_keywords text.
Proof.
  destruct (extract_keywords_shape text) as [Hns Hlen].
  repeat split.
  - intros E. rewrite E in Hlen. cbn in Hlen. lia.
  - unfold len. lia.
  - exact Hns.
  - now apply strip_no_space.
Qed.

(* ================================================================== *)
(** ** Trimming *)

Lemma drop_while_idem (p : N -> bool) (s : str) :
  drop_while p (drop_while p s) = drop_while p s.
Proof.
  induction s as [|c t IH]; [reflexivity|].
  cbn. destruct (p c) eqn:Hc; [exact IH|]. cbn. now rewrite Hc.
Qed.

(** What [drop_while] removes is a prefix of characters that satisfy the
    test. *)
Lemma drop_while_split (p : N -> bool) (s : str) :
  exists pre : str,
    s = pre ++ drop_while p s /\ forallb p pre = true.
Proof.
  induction s as [|c t (pre & Hpre & Hall)].
  - now exists [].
  - cbn. destruct (p c) eqn:Hc.
    + exists (c :: pre). cbn. rewrite Hc, Hall. split; [|reflexivity].
      now rewrite <- Hpre.
    + now exists [].
Qed.

Lemma drop_while_keeps_last (p : N -> bool) (l : str) (c : N) :
  p c = false -> drop_while p (l ++ [c]) = drop_while p l ++ [c].
Proof.
  intros Hc. induction l as [|d l IH]; cbn.
  - now rewrite Hc.
  - destruct (p d); [exact IH | reflexivity].
Qed.

Lemma lstrip_starts_clean (s : str) : starts_clean (lstrip s).
Proof. apply drop_while_idem. Qed.

Lemma rstrip_starts_clean (s : str) :
  starts_clean s -> starts_clean (rstrip s).
Proof.
  unfold starts_clean, lstrip, rstrip. destruct s as [|c t]; [reflexivity|].
  cbn [drop_while]. destruct (is_space c) eqn:Hc.
  - intros H. exfalso.
    destruct (drop_while_split is_space t) as (pre & Hpre & _).
    apply (f_equal (@List.length N)) in H, Hpre.
    rewrite length_app in Hpre. cbn in H. lia.
  - intros _. cbn [rev]. rewrite drop_while_keeps_last by exact Hc.
    rewrite rev_app_distr. cbn. now rewrite Hc.
Qed.

Lemma rstrip_idem (s : str) : rstrip (rstrip s) = rstrip s.
Proof.
  unfold rstrip. now rewrite rev_involutive, drop_while_idem.
Qed.

(** Trimming twice is trimming once. *)
Lemma strip_idem (s : str) : strip (strip s) = strip s.
Proof.
  unfold strip at 1.
  assert (H : lstrip (strip s) = strip s).
  { apply rstrip_starts_clean. apply lstrip_starts_clean. }
  rewrite H. unfold strip. apply rstrip_idem.
Qed.

(** White space at the end of a text adds no token. *)
Lemma split_ws_from_spaces (tail cur : str) :
  forallb is_space tail = true ->
  split_ws_from cur tail = split_ws_from cur [].
Proof.
  revert cur. induction tail as [|c t IH]; intros cur Hall; [reflexivity|].
  cbn in Hall. apply andb_prop in Hall. destruct Hall as [Hc Ht].
  cbn [split_ws_from]. rewrite Hc. destruct cur as [|d cur].
  - now rewrite (IH [] Ht).
  - now rewrite (IH [] Ht).
Qed.

Lemma split_ws_from_trailing (s tail : str) :
  forallb is_space tail = true ->
  forall cur : str, split_ws_from cur (s ++ tail) = split_ws_from cur s.
Proof.
  intros Hall. induction s as [|c t IH]; intros cur.
  - cbn [app]. now apply split_ws_from_spaces.
  - cbn [app split_ws_from]. destruct (is_space c).
    + destruct cur; now rewrite IH.
    + apply IH.
Qed.

Lemma split_ws_lstrip (s : str) : split_ws (lstrip s) = split_ws s.
Proof.
  unfold split_ws, lstrip. induction s as [|c t IH]; [reflexivity|].
  cbn [drop_while split_ws_from]. destruct (is_space c) eqn:Hc.
  - exact IH.
  - cbn [split_ws_from]. now rewrite Hc.
Qed.

Lemma rstrip_split (s : str) :
  exists tail : str, s = rstrip s ++ tail /\ forallb is_space tail = true.
Proof.
  destruct (drop_while_split is_space (rev s)) as (pre & Hpre & Hall).
  exists (rev pre). split.
  - unfold rstrip. rewrite <- rev_app_distr, <- Hpre.
    now rewrite rev_involutive.
  - rewrite forallb_forall in *. intros c Hc. apply Hall. now apply in_rev.
Qed.

Lemma split_ws_rstrip (s : str) : split_ws (rstrip s) = split_ws s.
Proof.
  destruct (rstrip_split s) as (tail & Hs & Hall).
  rewrite Hs at 2. unfold split_ws.
  now rewrite split_ws_from_trailing by exact Hall.
Qed.

(** Trimming keeps the tokens of a text. *)
Lemma split_ws_strip (s : str) : split_ws (strip s) = split_ws s.
Proof.
  unfold strip. now rewrite split_ws_rstrip, split_ws_lstrip.
Qed.

(** X3. White space around a text does not change its keywords: the
    keywords of the trimmed text are those of the text. *)
Theorem extract_keywords_ignores_outer_space (text : str) :
  extract_keywords (strip text) = extract_keywords text.
Proof.
  unfold extract_keywords. now rewrite split_ws_strip.
Qed.

(* ================================================================== *)
(** ** What every endpoint analyses *)

Section Units.

Variable analyzer : str -> str * spec_float.

Lemma analyze_list_units (items : list str) :
  results_of (response (analyze_list analyzer items))
  = List.map (result_of analyzer) items
  /\ classified (analyze_list analyzer items)
     = List.map (slice_to 500) items.
Proof.
  unfold response, classified. rewrite analyze_list_run. split; reflexivity.
Qed.

Lemma analyze_file_units (processing_time : spec_float)
      (content : list byte) :
  results_of (response (analyze_file analyzer processing_time content))
  = List.map (result_of analyzer) (file_units content)
  /\ classified (analyze_file analyzer processing_time content)
     = List.map (slice_to 500) (file_units content).
Proof.
  unfold response, classified, file_units.
  destruct (Utf8.decode content) as [text|] eqn:Hdec.
  - rewrite (analyze_file_run analyzer processing_time content [] Hdec).
    split; reflexivity.
  - unfold analyze_file. rewrite Hdec. split; reflexivity.
Qed.

Lemma scrape_url_units (page : fetch_outcome) :
  results_of (response (scrape_url analyzer page))
  = List.map (result_of analyzer) (scrape_units page)
  /\ classified (scrape_url analyzer page)
     = List.map (slice_to 500) (scrape_units page).
Proof.
  unfold response, classified. destruct page as [e|ps].
  - split; reflexivity.
  - rewrite scrape_url_run. cbn [fst snd app scrape_units].
    now rewrite scrape_payload_results.
Qed.


End Units.


(** X5. Label, confidence and score of an analysis depend on the first
    500 characters of the text only: two texts that agree on them get the
    same three values. *)
Theorem perform_analysis_sees_prefix_only
        (analyzer : str -> str * spec_float) (text1 text2 : str)
        (Hsame : firstn 500 text1 = firstn 500 text2) :
  Score.fields (result_of analyzer text1)
  = Score.fields (result_of analyzer text2).
Proof.
  rewrite !fields_of_analysis. unfold slice_to. now rewrite Hsame.
Qed.

Lemma perform_analysis_sees_prefix_only_witness :
  Score.fields (result_of Samples.likes_g MoreSamples.long_a)
  = Score.fields (result_of Samples.likes_g MoreSamples.long_b).
Proof.
  apply (perform_analysis_sees_prefix_only Samples.likes_g
           MoreSamples.long_a MoreSamples.long_b).
  vm_compute. reflexivity.
Defined.

(** X6. The list endpoint composes over concatenation: the results, the
    classifier calls and the count of a list that is two lists in a row are
    those of the first followed by those of the second. *)
Theorem analyze_list_concat
        (analyzer : str -> str * spec_float) (items1 items2 : list str) :
  let run := analyze_list analyzer (items1 ++ items2) in
  let run1 := analyze_list analyzer items1 in
  let run2 := analyze_list analyzer items2 in
  results_of (response run)
  = results_of (response run1) ++ results_of (response run2)
  /\ classified run = classified run1 ++ classified run2
  /\ (forall log : calls, snd (run log) = snd (run2 (snd (run1 log))))
  /\ get "total_scanned" (response run)
     = Some (PInt (Z.of_nat (List.length (results_of (response run1)))
                   + Z.of_nat (List.length (results_of (response run2))))).
Proof.
  intros run run1 run2. subst run run1 run2.
  rewrite !(proj1 (analyze_list_units analyzer _)).
  rewrite !(proj2 (analyze_list_units analyzer _)).
  rewrite !map_app. repeat split.
  - intros log. rewrite !analyze_list_run. cbn [snd].
    now rewrite map_app, app_assoc.
  - unfold response. rewrite analyze_list_run. cbn.
    rewrite !length_map, length_app. now rewrite Nat2Z.inj_add.
Qed.

(* ================================================================== *)
(** ** More on the file endpoint *)

Lemma one_line_rev (s : str) : one_line s -> one_line (rev s).
Proof.
  unfold one_line. rewrite !forallb_forall.
  intros H c Hc. apply H. now apply in_rev.
Qed.

(** The lines of [splitlines] hold no line boundary. *)
Lemma splitlines_from_one_line (n : nat) :
  forall s cur : str,
    (List.length s <= n)%nat -> one_line cur ->
    Forall one_line (splitlines_from cur s).
Proof.
  induction n as [|n IH]; intros s cur Hn Hcur.
  - destruct s; [|cbn in Hn; lia]. cbn.
    destruct cur; constructor; [now apply one_line_rev | constructor].
  - destruct s as [|c t].
    + cbn. destruct cur; constructor; [now apply one_line_rev | constructor].
    + cbn in Hn. cbn [splitlines_from].
      destruct (c =? 13)%N eqn:Hcr.
      * destruct t as [|c' t'].
        -- constructor; [now apply one_line_rev|].
           apply IH; [cbn; lia | reflexivity].
        -- cbn in Hn. destruct (c' =? 10)%N.
           ++ constructor; [now apply one_line_rev|].
              apply IH; [lia | reflexivity].
           ++ constructor; [now apply one_line_rev|].
              apply IH; [cbn; lia | reflexivity].
      * destruct (is_linebreak c) eqn:Hlb.
        -- constructor; [now apply one_line_rev|].
           apply IH; [lia | reflexivity].
        -- apply IH; [lia|]. unfold one_line in *. cbn.
           now rewrite Hcr, Hlb.
Qed.

Lemma splitlines_one_line (s : str) : Forall one_line (splitlines s).
Proof.
  apply splitlines_from_one_line with (n := List.length s);
    [lia | reflexivity].
Qed.

Lemma before_first_no_sep (sep : N) (s : str) :
  contains sep (Spec.before_first sep s) = false.
Proof.
  induction s as [|c t IH]; [reflexivity|].
  cbn. destruct (c =? sep)%N eqn:Hc; [reflexivity|].
  cbn. now rewrite Hc.
Qed.

Lemma before_first_one_line (sep : N) (s : str) :
  one_line s -> one_line (Spec.before_first sep s).
Proof.
  unfold one_line. induction s as [|c t IH]; [reflexivity|].
  cbn. intros H. apply andb_prop in H. destruct H as [Hc Ht].
  destruct (c =? sep)%N; [reflexivity|]. cbn. now rewrite Hc, IH.
Qed.

Lemma candidate_ok (line c : str) :
  one_line line -> Spec.candidate line = Some c -> file_text_ok c.
Proof.
  unfold Spec.candidate, file_text_ok. intros Hline.
  destruct (strip line); [discriminate|].
  destruct (contains 44 line) eqn:Hcomma; cbv zeta;
    match goal with
    | |- context [(5 <? ?x)%Z] => destruct (Z.ltb_spec 5 x)
    end; try discriminate; intros [= <-].
  - split; [apply before_first_no_sep|]. split; [assumption|].
    now apply before_first_one_line.
  - repeat split; assumption.
Qed.

Lemma candidates_ok (lines : list str) :
  Forall one_line lines -> Forall file_text_ok (Spec.candidates lines).
Proof.
  induction 1 as [|line rest Hline _ IH]; cbn; [constructor|].
  destruct (Spec.candidate line) as [c|] eqn:Hc; [|exact IH].
  constructor; [exact (candidate_ok Hline Hc) | exact IH].
Qed.

Lemma file_units_ok (content : list byte) :
  Forall file_text_ok (file_units content).
Proof.
  unfold file_units. destruct (Utf8.decode content) as [text|].
  - apply Forall_firstn_of. apply candidates_ok. apply splitlines_one_line.
  - constructor.
Qed.

Lemma file_units_length (content : list byte) (text : str) :
  Utf8.decode content = Some text ->
  (List.length (file_units content) <= MAX_ROWS)%nat
  /\ (List.length (file_units content)
      <= List.length (splitlines text))%nat.
Proof.
  intros Hdec. unfold file_units. rewrite Hdec. rewrite length_firstn.
  pose proof (candidates_length (splitlines text)). lia.
Qed.

(** X7. Every text the file endpoint analyses holds no comma and no line
    boundary and is longer than 5 characters once trimmed. *)
Theorem analyze_file_texts_are_first_columns
        (analyzer : str -> str * spec_float) (processing_time : spec_float)
        (content : list byte) :
  Forall
    (fun r : pyval =>
       exists t : str,
         get "text" r = Some (PStr t)
         /\ contains 44 t = false
         /\ (5 < len (strip t))%Z
         /\ forallb (fun c => negb ((c =? 13)%N || is_linebreak c)) t = true)
    (results_of (response (analyze_file analyzer processing_time content))).
Proof.
  rewrite (proj1 (analyze_file_units analyzer processing_time content)).
  apply Forall_forall. intros r Hr. apply in_map_iff in Hr.
  destruct Hr as (t & <- & Ht). exists t. split; [reflexivity|].
  pose proof (file_units_ok content) as Hok.
  rewrite Forall_forall in Hok. exact (Hok t Ht).
Qed.

(** X8. For an upload that decodes, [total_scanned] is the number of
    results and of classifier calls, and it exceeds neither 500 nor the
    number of lines of the upload. *)
Theorem analyze_file_scans_at_most_cap
        (analyzer : str -> str * spec_float) (processing_time : spec_float)
        (content : list byte) (text : str)
        (Hdec : Utf8.decode content = Some text) :
  let run := analyze_file analyzer processing_time content in
  exists n : nat,
    get "total_scanned" (response run) = Some (PInt (Z.of_nat n))
    /\ List.length (results_of (response run)) = n
    /\ List.length (classified run) = n
    /\ (n <= 500)%nat
    /\ (n <= List.length (splitlines text))%nat.
Proof.
  intros run. subst run. exists (List.length (file_units content)).
  destruct (analyze_file_units analyzer processing_time content) as [Hr Hc].
  rewrite Hr, Hc, !length_map.
  destruct (file_units_length content Hdec) as [Hcap Hlines].
  repeat split; try assumption.
  rewrite (analyze_file_total analyzer processing_time content Hdec).
  unfold file_units. rewrite Hdec, length_firstn.
  now rewrite Nat.min_comm.
Qed.

Lemma analyze_file_scans_at_most_cap_witness :
  exists n : nat,
    get "total_scanned"
      (response
         (analyze_file Samples.likes_g (S754_zero false) Samples.upload))
    = Some (PInt (Z.of_nat n))
    /\ List.length
         (results_of
            (response
               (analyze_file Samples.likes_g (S754_zero false)
                  Samples.upload))) = n
    /\ List.length
         (classified
            (analyze_file Samples.likes_g (S754_zero false) Samples.upload))
       = n
    /\ (n <= 500)%nat
    /\ (n <= List.length (splitlines Samples.upload_text))%nat.
Proof.
  exact (analyze_file_scans_at_most_cap
           Samples.likes_g (S754_zero false) Samples.upload
           (text := Samples.upload_text) eq_refl).
Defined.

(** X9. When an upload decodes and the response carries no warning, nothing
    was cut: every candidate of the upload was analysed, in line order. *)
Theorem analyze_file_without_warning_is_complete
        (analyzer : str -> str * spec_float) (processing_time : spec_float)
        (content : list byte) (text : str)
        (Hdec : Utf8.decode content = Some text)
        (Hnull : warning_of
                   (response (analyze_file analyzer processing_time content))
                 = Some PNone) :
  results_of (response (analyze_file analyzer processing_time content))
  = List.map (result_of analyzer) (Spec.candidates (splitlines text))
  /\ classified (analyze_file analyzer processing_time content)
     = List.map (slice_to 500) (Spec.candidates (splitlines text)).
Proof.
  rewrite (analyze_file_warning analyzer processing_time content Hdec)
    in Hnull.
  destruct (Nat.ltb_spec MAX_ROWS (List.length (splitlines text)))
    as [Hover|Hfit]; [discriminate Hnull|].
  destruct (analyze_file_units analyzer processing_time content) as [Hr Hc].
  rewrite Hr, Hc. unfold file_units. rewrite Hdec.
  pose proof (candidates_length (splitlines text)) as Hle.
  rewrite firstn_all2 by lia. split; reflexivity.
Qed.

Lemma analyze_file_without_warning_is_complete_witness :
  results_of
    (response
       (analyze_file Samples.likes_g (S754_zero false) Samples.upload))
  = List.map (result_of Samples.likes_g)
      (Spec.candidates (splitlines Samples.upload_text)).
Proof.
  exact (proj1 (analyze_file_without_warning_is_complete
                  Samples.likes_g (S754_zero false) Samples.upload
                  (text := Samples.upload_text) eq_refl eq_refl)).
Defined.

Lemma decode_codes_ascii (bs : list N) :
  forallb (fun b => (b <? 128)%N) bs = true ->
  Utf8.decode_codes bs = Some bs.
Proof.
  induction bs as [|b bs IH]; [reflexivity|].
  cbn [forallb]. intros H. apply andb_prop in H. destruct H as [Hb Hbs].
  cbn [Utf8.decode_codes]. rewrite Hb, (IH Hbs). reflexivity.
Qed.

(** X10. An upload whose bytes are all below 128 is never rejected: it
    decodes to the characters of these codes, and the response has no
    [error] key. *)
Theorem analyze_file_accepts_ascii
        (analyzer : str -> str * spec_float) (processing_time : spec_float)
        (content : list byte)
        (Hascii : forallb (fun b => (Byte.to_N b <? 128)%N) content = true) :
  Utf8.decode content = Some (List.map Byte.to_N content)
  /\ has_key "error"
       (response (analyze_file analyzer processing_time content)) = false
  /\ has_key "results"
       (response (analyze_file analyzer processing_time content)) = true.
Proof.
  assert (Hdec : Utf8.decode content = Some (List.map Byte.to_N content)).
  { unfold Utf8.decode. apply decode_codes_ascii.
    rewrite forallb_forall in *. intros b Hb. apply in_map_iff in Hb.
    destruct Hb as (x & <- & Hx). now apply Hascii. }
  split; [exact Hdec|]. unfold response.
  rewrite (analyze_file_run analyzer processing_time content [] Hdec).
  split; reflexivity.
Qed.

Lemma analyze_file_accepts_ascii_witness :
  Utf8.decode Samples.upload = Some (List.map Byte.to_N Samples.upload)
  /\ has_key "error"
       (response
          (analyze_file Samples.likes_g (S754_zero false) Samples.upload))
     = false
  /\ has_key "results"
       (response
          (analyze_file Samples.likes_g (S754_zero false) Samples.upload))
     = true.
Proof.
  apply (analyze_file_accepts_ascii Samples.likes_g (S754_zero false)
           Samples.upload).
  vm_compute. reflexivity.
Defined.

(** X11. The response of the file endpoint has one of two shapes, and the
    decoding decides which: the [error] key alone when the upload does not
    decode, and [total_scanned], [results] and [meta] without [error] when
    it does. *)
Theorem analyze_file_response_shape
        (analyzer : str -> str * spec_float) (processing_time : spec_float)
        (content : list byte) :
  let resp := response (analyze_file analyzer processing_time content) in
  (has_key "error" resp = true <-> Utf8.decode content = None)
  /\ has_key "total_scanned" resp = negb (has_key "error" resp)
  /\ has_key "results" resp = negb (has_key "error" resp)
  /\ has_key "meta" resp = negb (has_key "error" resp)
  /\ (has_key "error" resp = false -> warning_of resp <> None).
Proof.
  intros resp. subst resp. unfold response.
  destruct (Utf8.decode content) as [text|] eqn:Hdec.
  - rewrite (analyze_file_run analyzer processing_time content [] Hdec).
    repeat split; try reflexivity; try discriminate.
  - unfold analyze_file. rewrite Hdec.
    repeat split; try reflexivity; try discriminate.
Qed.

Lemma candidates_app (l1 l2 : list str) :
  Spec.candidates (l1 ++ l2) = Spec.candidates l1 ++ Spec.candidates l2.
Proof.
  induction l1 as [|line rest IH]; [reflexivity|].
  cbn. destruct (Spec.candidate line); cbn; now rewrite IH.
Qed.

(** X12. Once the loop of the file endpoint has gathered 500 results, the
    lines that follow change nothing: they are neither analysed nor sent to
    the classifier. *)
Theorem file_loop_ignores_lines_after_cap
        (analyzer : str -> str * spec_float) (lines more : list str)
        (results : list pyval) (log : calls)
        (Hfull : (MAX_ROWS
                  <= List.length (fst (file_loop analyzer lines results log)))
                 %nat) :
  file_loop analyzer (lines ++ more) results log
  = file_loop analyzer lines results log.
Proof.
  rewrite file_loop_run in Hfull. rewrite !file_loop_run.
  cbn [fst] in Hfull. cbv zeta in *.
  rewrite length_app, length_map, length_firstn in Hfull.
  rewrite candidates_app, firstn_app.
  replace (MAX_ROWS - List.length results
           - List.length (Spec.candidates lines))%nat with 0%nat by lia.
  cbn [firstn]. now rewrite app_nil_r.
Qed.

Lemma file_loop_ignores_lines_after_cap_witness :
  file_loop Samples.likes_g
    (MoreSamples.full_lines ++ MoreSamples.late_lines) [] []
  = file_loop Samples.likes_g MoreSamples.full_lines [] [].
Proof.
  apply (file_loop_ignores_lines_after_cap Samples.likes_g
           MoreSamples.full_lines MoreSamples.late_lines [] []).
  vm_compute. apply le_n.
Defined.

(** X13. For an upload that decodes, the file endpoint gives the results,
    the count and the classifier calls of the list endpoint on the first
    500 candidates of the upload. *)
Theorem analyze_file_is_list_analysis
        (analyzer : str -> str * spec_float) (processing_time : spec_float)
        (content : list byte) (text : str)
        (Hdec : Utf8.decode content = Some text) :
  let units := firstn MAX_ROWS (Spec.candidates (splitlines text)) in
  let file := analyze_file analyzer processing_time content in
  let list := analyze_list analyzer units in
  get "results" (response file) = get "results" (response list)
  /\ get "total_scanned" (response file)
     = get "total_scanned" (response list)
  /\ (forall log : calls, snd (file log) = snd (list log)).
Proof.
  intros units file list. subst file list. unfold response.
  rewrite (analyze_file_run analyzer processing_time content [] Hdec).
  rewrite analyze_list_run. fold units.
  repeat split. intros log.
  rewrite (analyze_file_run analyzer processing_time content log Hdec).
  now rewrite analyze_list_run.
Qed.

Lemma analyze_file_is_list_analysis_witness :
  get "results"
    (response
       (analyze_file Samples.likes_g (S754_zero false) Samples.upload))
  = get "results"
      (response
         (analyze_list Samples.likes_g
            (firstn MAX_ROWS
               (Spec.candidates (splitlines Samples.upload_text))))).
Proof.
  exact (proj1 (analyze_file_is_list_analysis
                  Samples.likes_g (S754_zero false) Samples.upload
                  (text := Samples.upload_text) eq_refl)).
Defined.

(* ================================================================== *)
(** ** More on the scrape endpoint *)

Lemma qualifying_ok (ps : list str) :
  Forall (fun p => strip p = p /\ (20 < len p)%Z) (Spec.qualifying ps).
Proof.
  apply Forall_forall. intros p Hp. unfold Spec.qualifying in Hp.
  apply filter_In in Hp. destruct Hp as [Hin Hlen].
  apply in_map_iff in Hin. destruct Hin as (raw & <- & _).
  split; [apply strip_idem | now apply Z.ltb_lt].
Qed.

Lemma scrape_units_ok (page : fetch_outcome) :
  Forall (fun p => strip p = p /\ (20 < len p)%Z) (scrape_units page)
  /\ (List.length (scrape_units page) <= 50)%nat.
Proof.
  destruct page as [e|ps]; cbn [scrape_units].
  - split; [constructor | cbn; lia].
  - split; [apply Forall_firstn_of, qualifying_ok | apply firstn_le_length].
Qed.

(** X14. Every text the scrape endpoint analyses is trimmed, with no white
    space at either end, and is longer than 20 characters. *)
Theorem scrape_texts_are_trimmed
        (analyzer : str -> str * spec_float) (page : fetch_outcome) :
  Forall
    (fun r : pyval =>
       exists p : str,
         get "text" r = Some (PStr p)
         /\ strip p = p
         /\ (20 < len p)%Z)
    (results_of (response (scrape_url analyzer page))).
Proof.
  rewrite (proj1 (scrape_url_units analyzer page)).
  apply Forall_forall. intros r Hr. apply in_map_iff in Hr.
  destruct Hr as (p & <- & Hp). exists p. split; [reflexivity|].
  destruct (scrape_units_ok page) as [Hok _].
  rewrite Forall_forall in Hok. exact (Hok p Hp).
Qed.

(** X15. Whatever the fetch gave, the response of the scrape endpoint has
    a [results] key, has either [error] or [total_scanned] and never both,
    has an empty [results] exactly when it has [error], holds 50 results at
    most, and counts its results in [total_scanned]. *)
Theorem scrape_response_shape
        (analyzer : str -> str * spec_float) (page : fetch_outcome) :
  let resp := response (scrape_url analyzer page) in
  has_key "results" resp = true
  /\ has_key "total_scanned" resp = negb (has_key "error" resp)
  /\ (has_key "error" resp = true <-> results_of resp = [])
  /\ (List.length (results_of resp) <= 50)%nat
  /\ get "total_scanned" resp
     = (if has_key "error" resp then None
        else Some (PInt (Z.of_nat (List.length (results_of resp))))).
Proof.
  intros resp. subst resp.
  destruct (scrape_units_ok page) as [_ Hcap].
  rewrite (proj1 (scrape_url_units analyzer page)). rewrite length_map.
  unfold response. destruct page as [e|ps].
  - repeat split; try reflexivity. cbn; lia.
  - rewrite scrape_url_run. cbn [fst]. cbn [scrape_units] in *.
    destruct (firstn 50 (Spec.qualifying ps)) as [|k ks].
    + repeat split; try reflexivity. cbn; lia.
    + repeat split; try reflexivity; try discriminate; try exact Hcap.
Qed.

(** X16. For a page with a paragraph that qualifies, the scrape endpoint is
    the list endpoint on the first 50 trimmed paragraphs that qualify: the
    same response and the same classifier calls. *)
Theorem scrape_is_list_analysis
        (analyzer : str -> str * spec_float) (ps : list str) (log : calls)
        (Hq : Spec.qualifying ps <> []) :
  scrape_url analyzer (Fetched ps) log
  = analyze_list analyzer (firstn 50 (Spec.qualifying ps)) log.
Proof.
  rewrite scrape_url_run, analyze_list_run.
  destruct (Spec.qualifying ps) as [|q qs]; [congruence|].
  reflexivity.
Qed.

Lemma scrape_is_list_analysis_witness :
  scrape_url Samples.likes_g (Fetched Samples.long_page) []
  = analyze_list Samples.likes_g
      (firstn 50 (Spec.qualifying Samples.long_page)) [].
Proof.
  apply (@scrape_is_list_analysis Samples.likes_g Samples.long_page []).
  vm_compute. intros H. discriminate H.
Defined.

(* ================================================================== *)
(** ** More on the score and on the warning *)

(** X17. For every result of the three endpoints and whatever the
    classifier answers (a confidence outside [0,1], an infinity or a NaN
    included), the score is the confidence or its negation, so both have
    the same absolute value. *)
Theorem score_keeps_magnitude
        (analyzer : str -> str * spec_float) (r : pyval)
        (Hr : Score.produced analyzer r) :
  exists (l : str) (c s : spec_float),
    Score.fields r = Some (l, c, s)
    /\ (s = c \/ s = SFopp c)
    /\ SFabs s = SFabs c.
Proof.
  destruct (produced_is_analysis Hr) as [text ->].
  set (l := fst (analyzer (slice_to 500 text))).
  set (c := snd (analyzer (slice_to 500 text))).
  exists l, c, (if str_eqb l (lit "POSITIVE") then c else SFopp c).
  split; [apply fields_of_analysis|].
  destruct (str_eqb l (lit "POSITIVE")).
  - split; [now left | reflexivity].
  - split; [now right | now destruct c].
Qed.

Lemma score_keeps_magnitude_witness :
  exists (l : str) (c s : spec_float),
    Score.fields (result_of Samples.likes_g (lit "bad stuff"))
    = Some (l, c, s)
    /\ (s = c \/ s = SFopp c)
    /\ SFabs s = SFabs c.
Proof.
  apply (score_keeps_magnitude (analyzer := Samples.likes_g)).
  apply Score.by_list with (items := [lit "bad stuff"]).
  left. reflexivity.
Defined.

(** X18. For an upload that decodes, the warning follows the number of
    lines of the upload, blank and short lines counted: it is the capped
    notice when there are more than 500 lines and null otherwise. So it is
    set whenever more than 500 candidates were found, in which case 500 are
    scanned. *)
Theorem analyze_file_warning_follows_line_count
        (analyzer : str -> str * spec_float) (processing_time : spec_float)
        (content : list byte) (text : str)
        (Hdec : Utf8.decode content = Some text) :
  let resp := response (analyze_file analyzer processing_time content) in
  let lines := List.length (splitlines text) in
  let found := List.length (Spec.candidates (splitlines text)) in
  (warning_of resp = Some capped_notice <-> (500 < lines)%nat)
  /\ (warning_of resp = Some PNone <-> (lines <= 500)%nat)
  /\ ((500 < found)%nat ->
      warning_of resp = Some capped_notice
      /\ get "total_scanned" resp = Some (PInt 500)).
Proof.
  intros resp lines found. subst resp lines found.
  rewrite (analyze_file_warning analyzer processing_time content Hdec).
  rewrite (analyze_file_total analyzer processing_time content Hdec).
  pose proof (candidates_length (splitlines text)) as Hle.
  change 500%nat with MAX_ROWS.
  destruct (Nat.ltb_spec MAX_ROWS (List.length (splitlines text)))
    as [Hover|Hfit].
  - repeat split; try (intros; assumption); try reflexivity.
    + intros H. discriminate H.
    + intros H. lia.
    + rewrite Nat.min_r by lia. reflexivity.
  - repeat split; try (intros; assumption); try reflexivity;
      try (intros H; discriminate H); intros; lia.
Qed.

Lemma analyze_file_warning_follows_line_count_witness :
  warning_of
    (response
       (analyze_file Samples.likes_g (S754_zero false) Samples.upload))
  = Some PNone
  <-> (List.length (splitlines Samples.upload_text) <= 500)%nat.
Proof.
  exact (proj1 (proj2 (analyze_file_warning_follows_line_count
                         Samples.likes_g (S754_zero false) Samples.upload
                         (text := Samples.upload_text) eq_refl))).
Defined.
